(** * linproj: the native binding around LAPACK's [dsygvx]

    A shallow embedding of the two C files of the package:

    - [src/LDA.c]: the shim [dsygvx_c], which fixes the configuration of the
      generalized symmetric-definite eigenvalue solver and forwards the
      caller's buffers to the Fortran routine [dsygvx];
    - [src/linproj_init.c]: the registration table [CEntries] and the module
      initialiser [R_init_linproj].

    The numerical routine itself is not part of the package: it is a
    parameter of the development (a [Variable] of the section that embeds
    the shim).  The host's registration interface is likewise outside the
    package; module [Rdynload] gives the small part of it that the
    initialiser drives. *)

From Stdlib Require Import ZArith Lia Ascii String List.
From Stdlib Require Import Floats.SpecFloat.
From stdpp Require Import base option gmap strings.

Local Open Scope Z_scope.

(** ** C [int] arithmetic *)

Module CInt.

Definition INT_MIN : Z := - 2 ^ 31.
Definition INT_MAX : Z := 2 ^ 31 - 1.

(** The value of a mathematical integer once stored in a 32-bit
    two's-complement [int]. *)
Definition int_wrap (x : Z) : Z := (x + 2 ^ 31) mod 2 ^ 32 - 2 ^ 31.

(** [x * y] on [int] operands. *)
Definition int_mul (x y : Z) : Z := int_wrap (x * y).

Definition in_int (x : Z) : Prop := INT_MIN <= x <= INT_MAX.

End CInt.

(** ** C [double] constants *)

Module CDouble.

(** IEEE 754 binary64 values, as the Standard Library specifies them. *)
Definition double : Type := spec_float.

Definition prec : Z := 53.
Definition emax : Z := 1024.

(** The literal [0.0]. *)
Definition lit_0_0 : double := S754_zero false.

(** The literal [1e-5]: the binary64 value [0x1.4f8b588e368f1p-17],
    that is, [5902958103587057 * 2^-69]. *)
Definition lit_1e_5 : double := S754_finite false 5902958103587057 (-69).

End CDouble.

(** ** Memory: the caller's buffers and the shim's automatic variables *)

(** A pointer is null, the address of a cell of the caller's memory, or the
    address of one of the automatic variables of the running function. *)
Inductive ptr : Type :=
| NULL
| HeapPtr (addr : Z)
| LocalPtr (x : string).

Inductive val : Type :=
| Vint (i : Z)
| Vdouble (d : CDouble.double)
| Vchar (c : ascii).

Record mem : Type := Mem {
  heap : gmap Z val;
  frame : gmap string val
}.

Definition deref (μ : mem) (p : ptr) : option val :=
  match p with
  | NULL => None
  | HeapPtr addr => heap μ !! addr
  | LocalPtr x => frame μ !! x
  end.

(** [&x] for an automatic variable [x]. *)
Definition addr_of (x : string) : ptr := LocalPtr x.

(** ** The external routine's interface *)

(** The twenty-three by-reference arguments of Fortran's [dsygvx], in the
    order of its parameter list. *)
Record dsygvx_args : Type := DsygvxArgs {
  arg_itype : ptr;
  arg_jobz : ptr;
  arg_range : ptr;
  arg_uplo : ptr;
  arg_n : ptr;
  arg_a : ptr;
  arg_lda : ptr;
  arg_b : ptr;
  arg_ldb : ptr;
  arg_vl : ptr;
  arg_vu : ptr;
  arg_il : ptr;
  arg_iu : ptr;
  arg_abstol : ptr;
  arg_m : ptr;
  arg_w : ptr;
  arg_z : ptr;
  arg_ldz : ptr;
  arg_work : ptr;
  arg_lwork : ptr;
  arg_iwork : ptr;
  arg_ifail : ptr;
  arg_info : ptr
}.

(** One call of the external routine: its arguments and the memory it was
    entered with. *)
Record call_event : Type := CallEvent {
  ev_args : dsygvx_args;
  ev_mem : mem
}.

(** ** A state-and-failure monad for C function bodies

    The state is the memory together with the log of external calls made so
    far; [None] stands for undefined behaviour (a read through a pointer
    that designates no object of the expected type). *)

Record state : Type := State {
  st_mem : mem;
  st_trace : list call_event
}.

Definition M (A : Type) : Type := state -> option (A * state).

Definition ret {A} (x : A) : M A := fun s => Some (x, s).

Definition bind {A B} (c : M A) (k : A -> M B) : M B :=
  fun s => match c s with
           | Some (x, s') => k x s'
           | None => None
           end.

Notation "x <- c1 ;; c2" := (bind c1 (fun x => c2))
  (at level 100, c1 at next level, right associativity).
Notation "c1 ;; c2" := (bind c1 (fun _ => c2))
  (at level 100, right associativity).

(** [T x = v;] : an automatic variable together with its initialiser. *)
Definition declare (x : string) (v : val) : M unit :=
  fun s =>
    Some (tt, {| st_mem := {| heap := heap (st_mem s);
                              frame := <[x := v]> (frame (st_mem s)) |};
                 st_trace := st_trace s |}).

(** [*p] for [int *p].  Defined where [p] designates an [int]; a read
    through a null pointer, a pointer to no object or a pointer to an
    object of another type is undefined in C and is [None] here (what a
    given build makes of the bytes it finds there is outside the model). *)
Definition load_int (p : ptr) : M Z :=
  fun s => match deref (st_mem s) p with
           | Some (Vint i) => Some (i, s)
           | _ => None
           end.

(** ** [src/LDA.c] *)

Section Shim.

(** The Fortran routine: whatever it does to the memory it is given.  It
    is taken to return; what it computes is left open. *)
Variable dsygvx : dsygvx_args -> mem -> mem.

(** [F77_CALL(dsygvx)( ... )] *)
Definition F77_CALL_dsygvx
    (itype jobz range uplo n a lda b ldb vl vu il iu abstol
     m w z ldz work lwork iwork ifail info : ptr) : M unit :=
  fun s =>
    let args := DsygvxArgs itype jobz range uplo n a lda b ldb vl vu il iu
                           abstol m w z ldz work lwork iwork ifail info in
    Some (tt, {| st_mem := dsygvx args (st_mem s);
                 st_trace := st_trace s ++ [CallEvent args (st_mem s)] |}).

Definition dsygvx_c (n a b il m w z work iwork ifail info : ptr) : M unit :=
  declare "itype" (Vint 1) ;;
  declare "jobz" (Vchar "V") ;;
  declare "range" (Vchar "I") ;;
  declare "uplo" (Vchar "U") ;;
  declare "vl" (Vdouble CDouble.lit_0_0) ;;
  declare "vu" (Vdouble CDouble.lit_0_0) ;;
  declare "abstol" (Vdouble CDouble.lit_1e_5) ;;
  vn <- load_int n ;;
  declare "lwork" (Vint (CInt.int_mul 8 vn)) ;;
  F77_CALL_dsygvx (addr_of "itype") (addr_of "jobz") (addr_of "range")
                  (addr_of "uplo")
                  n a n
                  b n
                  (addr_of "vl") (addr_of "vu")
                  il n
                  (addr_of "abstol")
                  m w z
                  n
                  work
                  (addr_of "lwork")
                  iwork ifail info.

(** A call of the shim by the host: the body runs on the caller's memory
    with a fresh frame of automatic variables, which is gone on return.
    The result is the caller's memory afterwards and the external calls
    that were made. *)
Definition invoke_dsygvx_c (n a b il m w z work iwork ifail info : ptr)
    (h : gmap Z val) : option (gmap Z val * list call_event) :=
  match dsygvx_c n a b il m w z work iwork ifail info
                 {| st_mem := {| heap := h; frame := ∅ |}; st_trace := [] |}
  with
  | Some (_, s) => Some (heap (st_mem s), st_trace s)
  | None => None
  end.

End Shim.

(** What an external call was given for one of its by-reference arguments:
    the value the pointer designated when the routine was entered. *)
Definition passed (field : dsygvx_args -> ptr) (ev : call_event) : option val :=
  deref (ev_mem ev) (field (ev_args ev)).

(** The eleven arguments of the routine that are the shim's own parameters,
    in the shim's parameter order. *)
Definition caller_args (args : dsygvx_args) : list ptr :=
  [arg_n args; arg_a args; arg_b args; arg_il args; arg_m args; arg_w args;
   arg_z args; arg_work args; arg_iwork args; arg_ifail args; arg_info args].

(** All twenty-three arguments, in the routine's parameter order. *)
Definition all_args (args : dsygvx_args) : list ptr :=
  [arg_itype args; arg_jobz args; arg_range args; arg_uplo args;
   arg_n args; arg_a args; arg_lda args; arg_b args; arg_ldb args;
   arg_vl args; arg_vu args; arg_il args; arg_iu args; arg_abstol args;
   arg_m args; arg_w args; arg_z args; arg_ldz args; arg_work args;
   arg_lwork args; arg_iwork args; arg_ifail args; arg_info args].

(** The automatic variables of [dsygvx_c]. *)
Definition dsygvx_c_locals : gset string :=
  {[ "itype"; "jobz"; "range"; "uplo"; "vl"; "vu"; "abstol"; "lwork" ]}.

(** The parameter list of [dsygvx_c], in order. *)
Definition dsygvx_c_params : list string :=
  ["n"; "a"; "b"; "il"; "m"; "w"; "z"; "work"; "iwork"; "ifail"; "info"].

(** [*p = v] for a pointer into the caller's memory or the current frame;
    used by the sample routines below. *)
Definition store (p : ptr) (v : val) (μ : mem) : mem :=
  match p with
  | NULL => μ
  | HeapPtr addr => {| heap := <[addr := v]> (heap μ); frame := frame μ |}
  | LocalPtr x => {| heap := heap μ; frame := <[x := v]> (frame μ) |}
  end.

(** A sample external routine, for concrete instances of the theorems: it
    reports success through [info] and does nothing else. *)
Definition dsygvx_reports_ok (args : dsygvx_args) (μ : mem) : mem :=
  store (arg_info args) (Vint 0) μ.

(** A binary64 value [m * 2^e] is within half a unit in the last place of
    [10^-k]: it is a correct rounding of the decimal literal [1e-k]. *)
Definition rounds_pow10 (d : CDouble.double) (k : Z) : Prop :=
  match d with
  | S754_finite false m e =>
      e < 0 /\ 2 * Z.abs (Z.pos m * 10 ^ k - 2 ^ (- e)) <= 10 ^ k
  | _ => False
  end.

(** ** The host's registration interface ([R_ext/Rdynload.h])

    Only what [linproj_init.c] drives: the method-definition tables, the
    per-module record the loader keeps, the two calls the initialiser makes,
    and the loader's symbol lookup. *)

Module Rdynload.

(** Addresses of the functions the module defines. *)
Inductive DL_FUNC : Type :=
| addr_dsygvx_c
| addr_R_init_linproj.

(** One row of a method-definition table; a null [name] ends the table. *)
Record R_CMethodDef : Type := MethodDef {
  name : option string;
  func : option DL_FUNC;
  numArgs : Z
}.

(** A registered routine, as the loader stores it. *)
Record Rf_DotCSymbol : Type := DotCSymbol {
  sym_name : string;
  sym_fun : option DL_FUNC;
  sym_numArgs : Z
}.

Inductive convention : Type := DotC | DotCall | DotFortran | DotExternal.

Record DllInfo : Type := MkDllInfo {
  CSymbols : list Rf_DotCSymbol;
  CallSymbols : list Rf_DotCSymbol;
  FortranSymbols : list Rf_DotCSymbol;
  ExternalSymbols : list Rf_DotCSymbol;
  useDynamicSymbols : bool
}.

(** The record of a module that has just been loaded: nothing registered,
    dynamic lookup on. *)
Definition AddDLL : DllInfo :=
  {| CSymbols := []; CallSymbols := []; FortranSymbols := [];
     ExternalSymbols := []; useDynamicSymbols := true |}.

(** The rows of a table up to its terminating null-name row. *)
Fixpoint rows (tbl : list R_CMethodDef) : list Rf_DotCSymbol :=
  match tbl with
  | [] => []
  | d :: tbl' =>
      match name d with
      | None => []
      | Some s => DotCSymbol s (func d) (numArgs d) :: rows tbl'
      end
  end.

Definition register_table (old : list Rf_DotCSymbol)
    (tbl : option (list R_CMethodDef)) : list Rf_DotCSymbol :=
  match tbl with
  | None => old
  | Some t => rows t
  end.

(** [R_registerRoutines(info, croutines, callRoutines, fortranRoutines,
    externalRoutines)]: a table that is not null replaces the module's
    routines of that convention.  Only the tables are modelled; whatever
    the loader does to the dynamic-lookup flag here is overridden by the
    initialiser's next statement. *)
Definition R_registerRoutines (info : DllInfo)
    (croutines callRoutines fortranRoutines externalRoutines :
       option (list R_CMethodDef)) : DllInfo :=
  {| CSymbols := register_table (CSymbols info) croutines;
     CallSymbols := register_table (CallSymbols info) callRoutines;
     FortranSymbols := register_table (FortranSymbols info) fortranRoutines;
     ExternalSymbols := register_table (ExternalSymbols info) externalRoutines;
     useDynamicSymbols := useDynamicSymbols info |}.

(** [R_useDynamicSymbols(info, value)] *)
Definition R_useDynamicSymbols (info : DllInfo) (value : bool) : DllInfo :=
  {| CSymbols := CSymbols info;
     CallSymbols := CallSymbols info;
     FortranSymbols := FortranSymbols info;
     ExternalSymbols := ExternalSymbols info;
     useDynamicSymbols := value |}.

Definition registered (info : DllInfo) (cv : convention) : list Rf_DotCSymbol :=
  match cv with
  | DotC => CSymbols info
  | DotCall => CallSymbols info
  | DotFortran => FortranSymbols info
  | DotExternal => ExternalSymbols info
  end.

Definition lookup_registered (info : DllInfo) (cv : convention) (s : string)
    : option Rf_DotCSymbol :=
  List.find (fun r => String.eqb (sym_name r) s) (registered info cv).

(** The loader's resolution of a name for a foreign call of convention
    [cv]: the registered routines first, then, if the module allows it,
    the module's exported symbols ([exports] stands for [dlsym]). *)
Definition R_dlsym (exports : string -> option DL_FUNC) (info : DllInfo)
    (cv : convention) (s : string) : option DL_FUNC :=
  match lookup_registered info cv s with
  | Some r => sym_fun r
  | None => if useDynamicSymbols info then exports s else None
  end.

End Rdynload.

(** ** [src/linproj_init.c] *)

Import Rdynload.

Definition CEntries : list R_CMethodDef :=
  [ {| name := Some "dsygvx_c"%string; func := Some addr_dsygvx_c; numArgs := 11 |};
    {| name := None; func := None; numArgs := 0 |} ].

Definition R_init_linproj (dll : DllInfo) : DllInfo :=
  let dll := R_registerRoutines dll (Some CEntries) None None None in
  R_useDynamicSymbols dll false.

(** The symbols the compiled module exports: its two external functions
    ([CEntries] is [static]). *)
Definition linproj_exports (s : string) : option DL_FUNC :=
  if String.eqb s "dsygvx_c" then Some addr_dsygvx_c
  else if String.eqb s "R_init_linproj" then Some addr_R_init_linproj
  else None.

(** A [.C] call through a function address with the given argument
    pointers: the address of [dsygvx_c] takes eleven. *)
Definition dot_C (dsygvx : dsygvx_args -> mem -> mem) (f : DL_FUNC)
    (args : list ptr) : option (M unit) :=
  match f, args with
  | addr_dsygvx_c, [n; a; b; il; m; w; z; work; iwork; ifail; info] =>
      Some (dsygvx_c dsygvx n a b il m w z work iwork ifail info)
  | _, _ => None
  end.

(** ** Notions used to state the properties *)

(** The frame [dsygvx_c] has built when it reaches the external call, for
    [*n = vn] (see [invoke_dsygvx_c_eq], which proves that it is). *)
Definition frame_at_call (vn : Z) : gmap string val :=
  <["lwork" := Vint (CInt.int_mul 8 vn)]>
    (<["abstol" := Vdouble CDouble.lit_1e_5]>
      (<["vu" := Vdouble CDouble.lit_0_0]>
        (<["vl" := Vdouble CDouble.lit_0_0]>
          (<["uplo" := Vchar "U"]>
            (<["range" := Vchar "I"]>
              (<["jobz" := Vchar "V"]>
                (<["itype" := Vint 1]> ∅))))))).

(** The external routine, called with [args] from a frame [fr], is confined
    to the cells [F] of the caller's memory: what it leaves in [F] depends
    on the caller's memory only through [F], and it leaves every other cell
    as it found it. *)
Definition confined (dsygvx : dsygvx_args -> mem -> mem) (F : gset Z)
    (args : dsygvx_args) (fr : gmap string val) : Prop :=
  (forall h1 h2 : gmap Z val,
      (forall addr, addr ∈ F -> h1 !! addr = h2 !! addr) ->
      forall addr, addr ∈ F ->
        heap (dsygvx args (Mem h1 fr)) !! addr
        = heap (dsygvx args (Mem h2 fr)) !! addr)
  /\ (forall (h : gmap Z val) addr, addr ∉ F ->
        heap (dsygvx args (Mem h fr)) !! addr = h !! addr).

(** Two host calls one after the other. *)
Definition and_then
    (first second : gmap Z val -> option (gmap Z val * list call_event))
    (h : gmap Z val) : option (gmap Z val * list call_event) :=
  match first h with
  | Some (h1, t1) =>
      match second h1 with
      | Some (h2, t2) => Some (h2, t1 ++ t2)
      | None => None
      end
  | None => None
  end.

(** ** A sample call

    The 2 x 2 problem A = diag(2, 3), B = identity with [il = 1], laid out
    in the caller's memory as the host passes it: [n] in cell 0, [A] in
    cells 1-4, [B] in 5-8, [il] in 9, [m] in 10, [w] in 11-12, [z] in
    13-16, [work] (16 doubles) in 17-32, [iwork] in 33-42, [ifail] in
    43-44 and [info] in 45. *)

Definition d_1_0 : CDouble.double := S754_finite false 4503599627370496 (-52).
Definition d_2_0 : CDouble.double := S754_finite false 4503599627370496 (-51).
Definition d_3_0 : CDouble.double := S754_finite false 6755399441055744 (-51).

(** [k] consecutive cells starting at [base], all holding [v]. *)
Definition fill (base : Z) (k : nat) (v : val) : list (Z * val) :=
  List.map (fun i => (base + Z.of_nat i, v)) (seq 0 k).

Definition sample_heap : gmap Z val :=
  list_to_map
    ([(0, Vint 2);
      (1, Vdouble d_2_0); (2, Vdouble CDouble.lit_0_0);
      (3, Vdouble CDouble.lit_0_0); (4, Vdouble d_3_0);
      (5, Vdouble d_1_0); (6, Vdouble CDouble.lit_0_0);
      (7, Vdouble CDouble.lit_0_0); (8, Vdouble d_1_0);
      (9, Vint 1); (10, Vint 0)]
     ++ fill 11 2 (Vdouble CDouble.lit_0_0)
     ++ fill 13 4 (Vdouble CDouble.lit_0_0)
     ++ fill 17 16 (Vdouble CDouble.lit_0_0)
     ++ fill 33 10 (Vint 0)
     ++ fill 43 2 (Vint 0)
     ++ [(45, Vint (-1))]).

(** The same memory with an [n] whose eightfold does not fit an [int]. *)
Definition huge_n_heap : gmap Z val := <[0 := Vint 268435456]> sample_heap.

(** A second problem of dimension 3 in cells 100 and up; only [n] (cell
    100) and [info] (cell 101) are laid out. *)
Definition two_problems_heap : gmap Z val :=
  <[100 := Vint 3]> (<[101 := Vint (-1)]> sample_heap).

(** The host's sample call of the shim, for a given external routine, a
    given pointer [n] and a given memory. *)
Abbreviation sample_invoke dsygvx n h :=
  (invoke_dsygvx_c dsygvx n (HeapPtr 1) (HeapPtr 5) (HeapPtr 9) (HeapPtr 10)
                   (HeapPtr 11) (HeapPtr 13) (HeapPtr 17) (HeapPtr 33)
                   (HeapPtr 43) (HeapPtr 45) h).

(** The eight arguments of the routine that the shim supplies itself, in
    the routine's parameter order. *)
Definition config_args (args : dsygvx_args) : list ptr :=
  [arg_itype args; arg_jobz args; arg_range args; arg_uplo args;
   arg_vl args; arg_vu args; arg_abstol args; arg_lwork args].

(** A pointer the caller of the shim can hold: not the address of one of
    the shim's automatic variables. *)
Definition caller_ptr (p : ptr) : Prop := forall x, p <> LocalPtr x.

(** Another sample routine: besides reporting success it overwrites the
    tolerance it was handed, one of the shim's automatic variables. *)
Definition dsygvx_overwrites_abstol (args : dsygvx_args) (μ : mem) : mem :=
  store (arg_abstol args) (Vdouble CDouble.lit_0_0)
        (store (arg_info args) (Vint 0) μ).

(** * Properties *)

(** ** Arithmetic and constants *)

Lemma int_wrap_in_int x : CInt.in_int (CInt.int_wrap x).
Proof.
  unfold CInt.in_int, CInt.int_wrap, CInt.INT_MIN, CInt.INT_MAX.
  pose proof (Z.mod_pos_bound (x + 2 ^ 31) (2 ^ 32) ltac:(lia)). lia.
Qed.

Lemma int_wrap_id x : CInt.in_int x -> CInt.int_wrap x = x.
Proof.
  unfold CInt.in_int, CInt.int_wrap, CInt.INT_MIN, CInt.INT_MAX. intros Hx.
  rewrite Z.mod_small; lia.
Qed.

Lemma int_wrap_congruent x : exists k, CInt.int_wrap x = x - k * 2 ^ 32.
Proof.
  exists ((x + 2 ^ 31) / 2 ^ 32). unfold CInt.int_wrap.
  rewrite Z.mod_eq by lia. lia.
Qed.

Lemma lit_1e_5_valid :
  valid_binary CDouble.prec CDouble.emax CDouble.lit_1e_5 = true.
Proof. vm_compute. reflexivity. Qed.

Lemma lit_1e_5_rounds : rounds_pow10 CDouble.lit_1e_5 5.
Proof. unfold rounds_pow10, CDouble.lit_1e_5. split; [lia | vm_compute; discriminate]. Qed.

(** ** The shim's run, in closed form *)

Section ShimFacts.

Variable dsygvx : dsygvx_args -> mem -> mem.
Variables (an : Z) (a b il m w z work iwork ifail info : ptr).

Local Abbreviation n := (HeapPtr an).

(** The argument record the shim hands to the routine. *)
Local Abbreviation forwarded :=
  (DsygvxArgs (addr_of "itype") (addr_of "jobz") (addr_of "range")
              (addr_of "uplo") n a n b n (addr_of "vl") (addr_of "vu") il n
              (addr_of "abstol") m w z n work (addr_of "lwork")
              iwork ifail info).

Lemma invoke_dsygvx_c_eq (h : gmap Z val) (vn : Z) :
  h !! an = Some (Vint vn) ->
  invoke_dsygvx_c dsygvx n a b il m w z work iwork ifail info h
  = Some (heap (dsygvx forwarded (Mem h (frame_at_call vn))),
          [CallEvent forwarded (Mem h (frame_at_call vn))]).
Proof.
  intros Hn.
  unfold invoke_dsygvx_c, dsygvx_c, bind, declare, load_int, F77_CALL_dsygvx.
  simpl. rewrite Hn. reflexivity.
Qed.

End ShimFacts.

Lemma frame_at_call_lookups (vn : Z) :
  frame_at_call vn !! "itype"%string = Some (Vint 1)
  /\ frame_at_call vn !! "jobz"%string = Some (Vchar "V")
  /\ frame_at_call vn !! "range"%string = Some (Vchar "I")
  /\ frame_at_call vn !! "uplo"%string = Some (Vchar "U")
  /\ frame_at_call vn !! "vl"%string = Some (Vdouble CDouble.lit_0_0)
  /\ frame_at_call vn !! "vu"%string = Some (Vdouble CDouble.lit_0_0)
  /\ frame_at_call vn !! "abstol"%string = Some (Vdouble CDouble.lit_1e_5)
  /\ frame_at_call vn !! "lwork"%string = Some (Vint (CInt.int_mul 8 vn)).
Proof. unfold frame_at_call. repeat split; by simplify_map_eq. Qed.

Lemma frame_at_call_dom (vn : Z) : dom (frame_at_call vn) = dsygvx_c_locals.
Proof.
  unfold frame_at_call, dsygvx_c_locals.
  rewrite !dom_insert_L, dom_empty_L. set_solver.
Qed.

(** ** The solver shim *)

Section ShimProperties.

Variable dsygvx : dsygvx_args -> mem -> mem.
Variables (an : Z) (a b il m w z work iwork ifail info : ptr).
Variables (h : gmap Z val) (vn : Z).

Local Abbreviation n := (HeapPtr an).

(** C1, for invocations in which [n] designates an [int] of the caller's
    memory.  The shim calls the external routine exactly once: the routine
    is entered on the caller's memory and what it leaves is what the caller
    gets back.  That call is given itype 1, jobz 'V', range 'I', uplo 'U',
    the caller's [n] as upper index [iu] and as the three leading dimensions
    [lda], [ldb], [ldz], abstol 1e-5 (the binary64 value nearest to 10^-5),
    and the caller's eleven pointers as they came. *)
Theorem dsygvx_c_single_call_fixed_configuration :
  h !! an = Some (Vint vn) ->
  exists h' ev,
    invoke_dsygvx_c dsygvx n a b il m w z work iwork ifail info h
    = Some (h', [ev])
    /\ heap (ev_mem ev) = h
    /\ h' = heap (dsygvx (ev_args ev) (ev_mem ev))
    /\ passed arg_itype ev = Some (Vint 1)
    /\ passed arg_jobz ev = Some (Vchar "V")
    /\ passed arg_range ev = Some (Vchar "I")
    /\ passed arg_uplo ev = Some (Vchar "U")
    /\ arg_iu (ev_args ev) = n
    /\ arg_lda (ev_args ev) = n
    /\ arg_ldb (ev_args ev) = n
    /\ arg_ldz (ev_args ev) = n
    /\ passed arg_abstol ev = Some (Vdouble CDouble.lit_1e_5)
    /\ rounds_pow10 CDouble.lit_1e_5 5
    /\ (arg_n (ev_args ev) = n /\ arg_a (ev_args ev) = a
        /\ arg_b (ev_args ev) = b /\ arg_il (ev_args ev) = il
        /\ arg_m (ev_args ev) = m /\ arg_w (ev_args ev) = w
        /\ arg_z (ev_args ev) = z /\ arg_work (ev_args ev) = work
        /\ arg_iwork (ev_args ev) = iwork /\ arg_ifail (ev_args ev) = ifail
        /\ arg_info (ev_args ev) = info).
Proof.
  intros Hn. eexists _, _. split.
  - apply invoke_dsygvx_c_eq, Hn.
  - destruct (frame_at_call_lookups vn) as (Li & Lj & Lr & Lu & _ & _ & La & _).
    unfold passed; simpl.
    repeat (split; [first [assumption | reflexivity | apply lit_1e_5_rounds]|]).
    reflexivity.
Qed.

(** C3, for dimensions whose eightfold fits an [int].  Whenever [8 * n] is
    representable as a C [int], the [lwork] the routine is given is
    [8 * n]. *)
Theorem dsygvx_c_lwork_eight_n_in_range :
  h !! an = Some (Vint vn) ->
  CInt.in_int (8 * vn) ->
  exists h' ev,
    invoke_dsygvx_c dsygvx n a b il m w z work iwork ifail info h
    = Some (h', [ev])
    /\ passed arg_lwork ev = Some (Vint (8 * vn)).
Proof.
  intros Hn Hr. eexists _, _. split.
  - apply invoke_dsygvx_c_eq, Hn.
  - unfold passed; simpl.
    destruct (frame_at_call_lookups vn) as (_ & _ & _ & _ & _ & _ & _ & ->).
    unfold CInt.int_mul. by rewrite int_wrap_id.
Qed.

(** C4.  The caller's memory after the shim returns is, cell for cell,
    the memory the external routine left; in particular the cell [info]
    designates holds exactly what the routine stored there.  The routine
    was called once and nothing ran after it. *)
Theorem dsygvx_c_info_passes_through :
  h !! an = Some (Vint vn) ->
  exists h' ev,
    invoke_dsygvx_c dsygvx n a b il m w z work iwork ifail info h
    = Some (h', [ev])
    /\ arg_info (ev_args ev) = info
    /\ h' = heap (dsygvx (ev_args ev) (ev_mem ev))
    /\ (forall ainfo, info = HeapPtr ainfo ->
          h' !! ainfo = deref (dsygvx (ev_args ev) (ev_mem ev)) info).
Proof.
  intros Hn. eexists _, _. split.
  - apply invoke_dsygvx_c_eq, Hn.
  - simpl. split; [reflexivity|]. split; [reflexivity|].
    intros ainfo ->. reflexivity.
Qed.

(** C5, with the one pointer the shim itself reads set apart.  Whatever
    [int] the caller stored in [n] (positive or not), whatever the other
    ten pointers are (null included) and whatever the buffers hold ([il],
    the entries of [B], ...), the external routine is called, once, on
    the caller's pointers and on the caller's memory as it stands.  And
    for any pointer [n0] at all, the shim never comes back to its caller
    without having made that call: no path rejects an argument. *)
Theorem dsygvx_c_no_validation :
  (h !! an = Some (Vint vn) ->
   exists h' ev,
     invoke_dsygvx_c dsygvx n a b il m w z work iwork ifail info h
     = Some (h', [ev])
     /\ caller_args (ev_args ev) = [n; a; b; il; m; w; z; work; iwork; ifail; info]
     /\ heap (ev_mem ev) = h)
  /\ (forall (n0 : ptr) (h0 h' : gmap Z val) (t : list call_event),
        invoke_dsygvx_c dsygvx n0 a b il m w z work iwork ifail info h0
        = Some (h', t) ->
        exists ev,
          t = [ev]
          /\ caller_args (ev_args ev)
             = [n0; a; b; il; m; w; z; work; iwork; ifail; info]
          /\ heap (ev_mem ev) = h0).
Proof.
  split.
  - intros Hn. eexists _, _. split; [apply invoke_dsygvx_c_eq, Hn|].
    split; reflexivity.
  - intros n0 h0 h' t.
    unfold invoke_dsygvx_c, dsygvx_c, bind, declare, load_int, F77_CALL_dsygvx.
    simpl. destruct (deref _ n0) as [[i|d|c]|]; try discriminate.
    intros [= <- <-]. eexists. split; [reflexivity|]. split; reflexivity.
Qed.

(** C7.  When the external routine is entered, the caller's memory is
    exactly as the caller left it, and the only objects the shim has
    created are its eight automatic variables; every pointer the routine
    is given is one of the caller's eleven or the address of one of those
    variables; and what the caller gets back is the memory the routine
    left, so a cell the routine does not change is not changed at all (no
    cell appears, disappears or is rewritten by the shim itself). *)
Theorem dsygvx_c_writes_only_through_the_call :
  h !! an = Some (Vint vn) ->
  exists h' ev,
    invoke_dsygvx_c dsygvx n a b il m w z work iwork ifail info h
    = Some (h', [ev])
    /\ heap (ev_mem ev) = h
    /\ dom (frame (ev_mem ev)) = dsygvx_c_locals
    /\ Forall (fun p => p ∈ [n; a; b; il; m; w; z; work; iwork; ifail; info]
                        \/ exists x, x ∈ dsygvx_c_locals /\ p = LocalPtr x)
              (all_args (ev_args ev))
    /\ h' = heap (dsygvx (ev_args ev) (ev_mem ev))
    /\ (forall addr,
          heap (dsygvx (ev_args ev) (ev_mem ev)) !! addr = h !! addr ->
          h' !! addr = h !! addr).
Proof.
  intros Hn. eexists _, _. split; [apply invoke_dsygvx_c_eq, Hn|].
  simpl. split; [reflexivity|]. split; [apply frame_at_call_dom|].
  split; [|split; [reflexivity|tauto]].
  unfold all_args, dsygvx_c_locals, addr_of; simpl.
  repeat (apply Forall_cons; split;
          [first [left; apply list_elem_of_In; simpl; tauto
                 | right; eexists; split; [|reflexivity];
                   rewrite !elem_of_union, !elem_of_singleton; tauto]|]).
  apply Forall_nil. exact I.
Qed.

(** C8.  [lwork] is the product of 8 and the [int] that [n] designates, taken in [int]: for
    [0 <= 8 n <= INT_MAX] it is [8 n]; once [8 n] exceeds [INT_MAX] it is
    [8 n] less a positive multiple of [2^32], an [int] again and so not
    the mathematical product. *)
Theorem dsygvx_c_lwork_int_arithmetic :
  h !! an = Some (Vint vn) ->
  exists h' ev lw,
    invoke_dsygvx_c dsygvx n a b il m w z work iwork ifail info h
    = Some (h', [ev])
    /\ passed arg_lwork ev = Some (Vint lw)
    /\ lw = CInt.int_mul 8 vn
    /\ (0 <= 8 * vn <= CInt.INT_MAX -> lw = 8 * vn)
    /\ (8 * vn > CInt.INT_MAX ->
          (exists k, 0 < k /\ lw = 8 * vn - k * 2 ^ 32)
          /\ CInt.in_int lw
          /\ lw <> 8 * vn).
Proof.
  intros Hn. eexists _, _, _. split; [apply invoke_dsygvx_c_eq, Hn|].
  split.
  { unfold passed; simpl. apply (frame_at_call_lookups vn). }
  split; [reflexivity|]. unfold CInt.int_mul. split.
  - intros Hr. apply int_wrap_id. unfold CInt.in_int, CInt.INT_MIN. lia.
  - intros Hbig.
    pose proof (int_wrap_in_int (8 * vn)) as Hin.
    destruct (int_wrap_congruent (8 * vn)) as [k Hk].
    unfold CInt.in_int, CInt.INT_MIN, CInt.INT_MAX in *.
    split; [exists k; lia|]. split; lia.
Qed.

End ShimProperties.

(** ** Statelessness *)

Lemma invoke_dsygvx_c_reads_n dsygvx an a b il m w z work iwork ifail info
    (h h' : gmap Z val) (t : list call_event) :
  invoke_dsygvx_c dsygvx (HeapPtr an) a b il m w z work iwork ifail info h
  = Some (h', t) ->
  exists vn, h !! an = Some (Vint vn).
Proof.
  unfold invoke_dsygvx_c, dsygvx_c, bind, declare, load_int, F77_CALL_dsygvx.
  simpl. destruct (h !! an) as [[i|d|c]|]; try discriminate. eauto.
Qed.

(** Two transformations of the caller's memory that are confined to disjoint
    sets of cells commute, and each leaves in its own cells what it leaves
    there when run alone. *)
Lemma confined_actions_commute (f1 f2 : gmap Z val -> gmap Z val)
    (F1 F2 : gset Z) (h : gmap Z val) :
  (forall h1 h2 : gmap Z val,
      (forall x, x ∈ F1 -> h1 !! x = h2 !! x) ->
      forall x, x ∈ F1 -> f1 h1 !! x = f1 h2 !! x) ->
  (forall (h0 : gmap Z val) x, x ∉ F1 -> f1 h0 !! x = h0 !! x) ->
  (forall h1 h2 : gmap Z val,
      (forall x, x ∈ F2 -> h1 !! x = h2 !! x) ->
      forall x, x ∈ F2 -> f2 h1 !! x = f2 h2 !! x) ->
  (forall (h0 : gmap Z val) x, x ∉ F2 -> f2 h0 !! x = h0 !! x) ->
  F1 ## F2 ->
  f1 (f2 h) = f2 (f1 h)
  /\ (forall x, x ∈ F1 -> f2 (f1 h) !! x = f1 h !! x)
  /\ (forall x, x ∈ F2 -> f2 (f1 h) !! x = f2 h !! x)
  /\ (forall x, x ∉ F1 -> x ∉ F2 -> f2 (f1 h) !! x = h !! x).
Proof.
  intros L1 O1 L2 O2 Hdisj.
  assert (In1 : forall x, x ∈ F1 -> f2 (f1 h) !! x = f1 h !! x).
  { intros x Hx. apply O2. set_solver. }
  assert (In2 : forall x, x ∈ F2 -> f2 (f1 h) !! x = f2 h !! x).
  { intros x Hx. apply L2; [|exact Hx]. intros y Hy. apply O1. set_solver. }
  assert (Out : forall x, x ∉ F1 -> x ∉ F2 -> f2 (f1 h) !! x = h !! x).
  { intros x H1 H2. rewrite O2 by exact H2. apply O1, H1. }
  split; [|split; [exact In1|split; [exact In2|exact Out]]].
  apply map_eq. intros x.
  destruct (decide (x ∈ F1)) as [H1|H1].
  - rewrite In1 by exact H1. apply L1; [|exact H1].
    intros y Hy. apply O2. set_solver.
  - rewrite O1 by exact H1.
    destruct (decide (x ∈ F2)) as [H2|H2].
    + symmetry. apply In2, H2.
    + rewrite Out by assumption. apply O2, H2.
Qed.

Section Independence.

Variable dsygvx : dsygvx_args -> mem -> mem.
Variables (an1 : Z) (a1 b1 il1 m1 w1 z1 work1 iwork1 ifail1 info1 : ptr).
Variables (an2 : Z) (a2 b2 il2 m2 w2 z2 work2 iwork2 ifail2 info2 : ptr).

Local Abbreviation call1 :=
  (invoke_dsygvx_c dsygvx (HeapPtr an1) a1 b1 il1 m1 w1 z1 work1 iwork1
                   ifail1 info1).
Local Abbreviation call2 :=
  (invoke_dsygvx_c dsygvx (HeapPtr an2) a2 b2 il2 m2 w2 z2 work2 iwork2
                   ifail2 info2).

(** C6.  The shim's run is a function of its arguments and of the
    caller's memory alone.  Two invocations with the same pointers and
    the same [int] behind [n] hand the routine the same arguments and the
    same configuration frame, and from the same memory they give the same
    result.  And when two invocations work on disjoint sets of cells
    ([F1] with [n1] in it, [F2] with [n2] in it, the routine confined to
    each), running them in either order ends in the same memory, in which
    each invocation's cells are as that invocation alone leaves them and
    every other cell is untouched. *)
Theorem dsygvx_c_stateless_order_independent :
  (forall (h h' : gmap Z val) (vn : Z),
      h !! an1 = Some (Vint vn) -> h' !! an1 = Some (Vint vn) ->
      exists r r' ev ev',
        call1 h = Some (r, [ev]) /\ call1 h' = Some (r', [ev'])
        /\ ev_args ev = ev_args ev'
        /\ frame (ev_mem ev) = frame (ev_mem ev')
        /\ (h = h' -> ev = ev' /\ r = r'))
  /\ (forall (h hA hB : gmap Z val) (evA evB : call_event) (F1 F2 : gset Z),
        call1 h = Some (hA, [evA]) ->
        call2 h = Some (hB, [evB]) ->
        F1 ## F2 -> an1 ∈ F1 -> an2 ∈ F2 ->
        confined dsygvx F1 (ev_args evA) (frame (ev_mem evA)) ->
        confined dsygvx F2 (ev_args evB) (frame (ev_mem evB)) ->
        exists h12 ev1 ev2 ev2' ev1',
          and_then call1 call2 h = Some (h12, [ev1; ev2])
          /\ and_then call2 call1 h = Some (h12, [ev2'; ev1'])
          /\ ev_args ev1 = ev_args evA /\ ev_args ev1' = ev_args evA
          /\ ev_args ev2 = ev_args evB /\ ev_args ev2' = ev_args evB
          /\ (forall addr, addr ∈ F1 -> h12 !! addr = hA !! addr)
          /\ (forall addr, addr ∈ F2 -> h12 !! addr = hB !! addr)
          /\ (forall addr, addr ∉ F1 -> addr ∉ F2 -> h12 !! addr = h !! addr)).
Proof.
  split.
  - intros h h' vn Hh Hh'. eexists _, _, _, _.
    split; [apply invoke_dsygvx_c_eq, Hh|].
    split; [apply invoke_dsygvx_c_eq, Hh'|].
    simpl. split; [reflexivity|]. split; [reflexivity|].
    intros ->. split; reflexivity.
  - intros h hA hB evA evB F1 F2 HA HB Hdisj Hn1 Hn2.
    destruct (invoke_dsygvx_c_reads_n _ _ _ _ _ _ _ _ _ _ _ _ _ _ _ HA) as [v1 Hv1].
    destruct (invoke_dsygvx_c_reads_n _ _ _ _ _ _ _ _ _ _ _ _ _ _ _ HB) as [v2 Hv2].
    rewrite (invoke_dsygvx_c_eq dsygvx _ _ _ _ _ _ _ _ _ _ _ _ _ Hv1) in HA.
    rewrite (invoke_dsygvx_c_eq dsygvx _ _ _ _ _ _ _ _ _ _ _ _ _ Hv2) in HB.
    injection HA as <- <-. injection HB as <- <-. simpl.
    intros [C1a C1b] [C2a C2b].
    assert (Hn2A : an2 ∉ F1) by set_solver.
    assert (Hn1B : an1 ∉ F2) by set_solver.
    pose proof (C1b h an2 Hn2A) as E2. rewrite Hv2 in E2.
    pose proof (C2b h an1 Hn1B) as E1. rewrite Hv1 in E1.
    unfold and_then.
    rewrite (invoke_dsygvx_c_eq dsygvx _ _ _ _ _ _ _ _ _ _ _ _ _ Hv1).
    rewrite (invoke_dsygvx_c_eq dsygvx _ _ _ _ _ _ _ _ _ _ _ _ _ Hv2).
    rewrite (invoke_dsygvx_c_eq dsygvx _ _ _ _ _ _ _ _ _ _ _ _ _ E2).
    rewrite (invoke_dsygvx_c_eq dsygvx _ _ _ _ _ _ _ _ _ _ _ _ _ E1).
    simpl.
    destruct (confined_actions_commute _ _ F1 F2 h C1a C1b C2a C2b Hdisj)
      as (Heq & In1 & In2 & Out).
    simpl in Heq. rewrite Heq.
    eexists _, _, _, _, _. split; [reflexivity|]. split; [reflexivity|].
    simpl. repeat (split; [reflexivity|]).
    split; [exact In1|]. split; [exact In2|exact Out].
Qed.

End Independence.

(** ** Registration *)

Lemma rows_CEntries :
  rows CEntries = [DotCSymbol "dsygvx_c" (Some addr_dsygvx_c) 11].
Proof. reflexivity. Qed.

Lemma lookup_registered_init_DotC (dll : DllInfo) (s : string) :
  lookup_registered (R_init_linproj dll) DotC s
  = if String.eqb "dsygvx_c" s
    then Some (DotCSymbol "dsygvx_c" (Some addr_dsygvx_c) 11)
    else None.
Proof.
  unfold lookup_registered, R_init_linproj. simpl.
  destruct (String.eqb "dsygvx_c" s); reflexivity.
Qed.

(** C2.  The table handed to the loader has exactly one row before its
    terminator: the name "dsygvx_c", the address of the shim, eleven
    arguments, as many as the shim has parameters (n, a, b, il, m, w, z,
    work, iwork, ifail, info), which is what a call through that address
    takes.  After initialisation that row is the module's [.C] table and
    dynamic lookup is off: a name resolves to what is registered under it
    and to nothing else, whatever the module exports. *)
Theorem R_init_linproj_registers_one_entry_point :
  rows CEntries = [DotCSymbol "dsygvx_c" (Some addr_dsygvx_c) 11]
  /\ Z.of_nat (length dsygvx_c_params) = 11
  /\ dsygvx_c_params
     = ["n"; "a"; "b"; "il"; "m"; "w"; "z"; "work"; "iwork"; "ifail"; "info"]%string
  /\ (forall dsygvx n a b il m w z work iwork ifail info,
        dot_C dsygvx addr_dsygvx_c [n; a; b; il; m; w; z; work; iwork; ifail; info]
        = Some (dsygvx_c dsygvx n a b il m w z work iwork ifail info))
  /\ (forall dsygvx (args : list ptr),
        is_Some (dot_C dsygvx addr_dsygvx_c args) <-> Z.of_nat (length args) = 11)
  /\ (forall dll : DllInfo,
        CSymbols (R_init_linproj dll) = rows CEntries
        /\ useDynamicSymbols (R_init_linproj dll) = false
        /\ (forall exports cv s,
              R_dlsym exports (R_init_linproj dll) cv s
              = r ← lookup_registered (R_init_linproj dll) cv s; sym_fun r)
        /\ (forall exports s,
              R_dlsym exports (R_init_linproj dll) DotC s
              = if String.eqb "dsygvx_c" s then Some addr_dsygvx_c else None)).
Proof.
  split; [reflexivity|]. split; [reflexivity|]. split; [reflexivity|].
  split; [reflexivity|]. split.
  - intros dsygvx args. split.
    + intros [c Hc]. unfold dot_C in Hc.
      do 12 (destruct args as [|? args]; try discriminate). reflexivity.
    + intros Hlen.
      do 11 (destruct args as [|? args]; [simpl in Hlen; lia|]).
      destruct args; [simpl; eauto | simpl in Hlen; lia].
  - intros dll. split; [reflexivity|]. split; [reflexivity|]. split.
    + intros exports cv s. unfold R_dlsym.
      destruct (lookup_registered _ cv s); reflexivity.
    + intros exports s. unfold R_dlsym.
      rewrite lookup_registered_init_DotC.
      destruct (String.eqb "dsygvx_c" s); reflexivity.
Qed.

(** C9.  For each convention other than [.C], initialisation registers
    nothing: the module's table of that convention is what it was.  If that
    table is empty, as it is when the module has just been loaded, no name
    resolves under that convention afterwards, whatever the module exports;
    under [.C] the name "dsygvx_c" resolves to the shim. *)
Theorem R_init_linproj_dot_C_only (dll : DllInfo) (cv : convention) :
  cv <> DotC ->
  registered (R_init_linproj dll) cv = registered dll cv
  /\ (registered dll cv = [] ->
      forall exports s, R_dlsym exports (R_init_linproj dll) cv s = None)
  /\ (forall exports,
        R_dlsym exports (R_init_linproj dll) DotC "dsygvx_c"
        = Some addr_dsygvx_c).
Proof.
  intros Hcv.
  assert (Hsame : registered (R_init_linproj dll) cv = registered dll cv).
  { destruct cv; [congruence| | |]; reflexivity. }
  split; [exact Hsame|]. split.
  - intros Hempty exports s. unfold R_dlsym, lookup_registered.
    rewrite Hsame, Hempty. reflexivity.
  - intros exports. reflexivity.
Qed.

(** ** The properties on the sample call *)

Lemma sample_heap_n : sample_heap !! 0 = Some (Vint 2).
Proof. vm_compute. reflexivity. Qed.

Lemma huge_n_heap_n : huge_n_heap !! 0 = Some (Vint 268435456).
Proof. vm_compute. reflexivity. Qed.

Lemma dsygvx_c_single_call_fixed_configuration_sample :
  sample_heap !! 0 = Some (Vint 2)
  /\ exists h' ev,
       sample_invoke dsygvx_reports_ok (HeapPtr 0) sample_heap = Some (h', [ev])
       /\ h' = heap (dsygvx_reports_ok (ev_args ev) (ev_mem ev))
       /\ passed arg_itype ev = Some (Vint 1)
       /\ passed arg_abstol ev = Some (Vdouble CDouble.lit_1e_5)
       /\ arg_iu (ev_args ev) = HeapPtr 0.
Proof.
  split; [vm_compute; reflexivity|].
  destruct (dsygvx_c_single_call_fixed_configuration dsygvx_reports_ok 0
              (HeapPtr 1) (HeapPtr 5) (HeapPtr 9) (HeapPtr 10) (HeapPtr 11)
              (HeapPtr 13) (HeapPtr 17) (HeapPtr 33) (HeapPtr 43) (HeapPtr 45)
              sample_heap 2 sample_heap_n)
    as (h' & ev & Hrun & _ & Hback & Hitype & _ & _ & _ & Hiu & _ & _ & _
        & Habstol & _).
  exists h', ev. repeat split; assumption.
Defined.

(** With a null [n] no call of the routine is made: the shim's read
    through [n] comes first and the run is undefined.  The routine and the
    other pointers play no part; here the routine is the one that
    overwrites the tolerance and the memory is the one with two problems. *)
Lemma dsygvx_c_makes_no_call_with_null_n :
  invoke_dsygvx_c dsygvx_overwrites_abstol NULL (HeapPtr 1) (HeapPtr 5)
                  (HeapPtr 9) (HeapPtr 10) (HeapPtr 11) (HeapPtr 13)
                  (HeapPtr 17) (HeapPtr 33) (HeapPtr 43) (HeapPtr 45)
                  two_problems_heap
  = None
  /\ ~ (exists h' ev,
          invoke_dsygvx_c dsygvx_overwrites_abstol NULL (HeapPtr 1) (HeapPtr 5)
                          (HeapPtr 9) (HeapPtr 10) (HeapPtr 11) (HeapPtr 13)
                          (HeapPtr 17) (HeapPtr 33) (HeapPtr 43) (HeapPtr 45)
                          two_problems_heap
          = Some (h', [ev])
          /\ passed arg_itype ev = Some (Vint 1)).
Proof.
  assert (E : invoke_dsygvx_c dsygvx_overwrites_abstol NULL (HeapPtr 1)
                (HeapPtr 5) (HeapPtr 9) (HeapPtr 10) (HeapPtr 11) (HeapPtr 13)
                (HeapPtr 17) (HeapPtr 33) (HeapPtr 43) (HeapPtr 45)
                two_problems_heap = None).
  { unfold invoke_dsygvx_c, dsygvx_c, bind, declare, load_int. reflexivity. }
  split; [exact E|]. intros (h' & ev & H & _). rewrite E in H. discriminate.
Qed.

Lemma dsygvx_c_lwork_eight_n_in_range_sample :
  sample_heap !! 0 = Some (Vint 2)
  /\ CInt.in_int (8 * 2)
  /\ exists h' ev,
       sample_invoke dsygvx_reports_ok (HeapPtr 0) sample_heap = Some (h', [ev])
       /\ passed arg_lwork ev = Some (Vint 16).
Proof.
  split; [vm_compute; reflexivity|].
  assert (Hr : CInt.in_int (8 * 2)).
  { unfold CInt.in_int, CInt.INT_MIN, CInt.INT_MAX. lia. }
  split; [exact Hr|].
  exact (dsygvx_c_lwork_eight_n_in_range dsygvx_reports_ok 0
           (HeapPtr 1) (HeapPtr 5) (HeapPtr 9) (HeapPtr 10) (HeapPtr 11)
           (HeapPtr 13) (HeapPtr 17) (HeapPtr 33) (HeapPtr 43) (HeapPtr 45)
           sample_heap 2 sample_heap_n Hr).
Defined.

(** At [n = 2^28] the product [8 n] is [2^31]; the [lwork] handed to the
    routine is [-2^31], not [8 n]. *)
Lemma dsygvx_c_lwork_not_eight_n_at_2_pow_28 :
  (exists h' ev,
      sample_invoke dsygvx_reports_ok (HeapPtr 0) huge_n_heap = Some (h', [ev])
      /\ passed arg_lwork ev = Some (Vint (-2147483648)))
  /\ ~ (exists h' ev,
          sample_invoke dsygvx_reports_ok (HeapPtr 0) huge_n_heap
          = Some (h', [ev])
          /\ passed arg_lwork ev = Some (Vint (8 * 268435456))).
Proof.
  assert (Hrun1 : exists h1 ev1,
             sample_invoke dsygvx_reports_ok (HeapPtr 0) huge_n_heap
             = Some (h1, [ev1])
             /\ passed arg_lwork ev1 = Some (Vint (-2147483648))).
  { eexists _, _. split; [apply invoke_dsygvx_c_eq, huge_n_heap_n|].
    vm_compute. reflexivity. }
  destruct Hrun1 as (h1 & ev1 & Hrun1 & Hlw1).
  split; [exists h1, ev1; split; assumption|].
  intros (h' & ev & Hrun & Hlw).
  rewrite Hrun1 in Hrun. injection Hrun as _ <-.
  rewrite Hlw1 in Hlw. injection Hlw as Hlw. vm_compute in Hlw. discriminate.
Qed.

Lemma dsygvx_c_info_passes_through_sample :
  sample_heap !! 0 = Some (Vint 2)
  /\ exists h' ev,
       sample_invoke dsygvx_reports_ok (HeapPtr 0) sample_heap = Some (h', [ev])
       /\ h' !! 45 = deref (dsygvx_reports_ok (ev_args ev) (ev_mem ev)) (HeapPtr 45).
Proof.
  split; [vm_compute; reflexivity|].
  destruct (dsygvx_c_info_passes_through dsygvx_reports_ok 0
              (HeapPtr 1) (HeapPtr 5) (HeapPtr 9) (HeapPtr 10) (HeapPtr 11)
              (HeapPtr 13) (HeapPtr 17) (HeapPtr 33) (HeapPtr 43) (HeapPtr 45)
              sample_heap 2 sample_heap_n)
    as (h' & ev & Hrun & _ & _ & Hinfo).
  exists h', ev. split; [exact Hrun|]. exact (Hinfo 45 eq_refl).
Defined.

Lemma dsygvx_c_no_validation_sample :
  (<[0 := Vint (-7)]> sample_heap) !! 0 = Some (Vint (-7))
  /\ exists h' ev,
       invoke_dsygvx_c dsygvx_reports_ok (HeapPtr 0) NULL NULL (HeapPtr 9) NULL
                       NULL NULL NULL NULL NULL NULL
                       (<[0 := Vint (-7)]> sample_heap)
       = Some (h', [ev])
       /\ caller_args (ev_args ev)
          = [HeapPtr 0; NULL; NULL; HeapPtr 9; NULL; NULL; NULL; NULL; NULL;
             NULL; NULL].
Proof.
  split; [vm_compute; reflexivity|].
  assert (Hn : (<[0 := Vint (-7)]> sample_heap) !! 0 = Some (Vint (-7)))
    by (vm_compute; reflexivity).
  destruct (proj1 (dsygvx_c_no_validation dsygvx_reports_ok 0
                     NULL NULL (HeapPtr 9) NULL NULL NULL NULL NULL NULL NULL
                     (<[0 := Vint (-7)]> sample_heap) (-7)) Hn)
    as (h' & ev & Hrun & Hargs & _).
  exists h', ev. split; assumption.
Defined.

(** With a null [n] the shim reads through it before the call: the run is
    undefined and the routine is not reached. *)
Lemma dsygvx_c_null_n_never_reaches_the_call :
  sample_invoke dsygvx_reports_ok NULL sample_heap = None
  /\ ~ (exists h' ev,
          sample_invoke dsygvx_reports_ok NULL sample_heap = Some (h', [ev])).
Proof.
  assert (E : sample_invoke dsygvx_reports_ok NULL sample_heap = None).
  { unfold invoke_dsygvx_c, dsygvx_c, bind, declare, load_int. reflexivity. }
  split; [exact E|]. intros (h' & ev & H). rewrite E in H. discriminate.
Qed.

Lemma dsygvx_c_writes_only_through_the_call_sample :
  sample_heap !! 0 = Some (Vint 2)
  /\ exists h' ev,
       sample_invoke dsygvx_reports_ok (HeapPtr 0) sample_heap = Some (h', [ev])
       /\ heap (ev_mem ev) = sample_heap
       /\ dom (frame (ev_mem ev)) = dsygvx_c_locals
       /\ h' = heap (dsygvx_reports_ok (ev_args ev) (ev_mem ev)).
Proof.
  split; [vm_compute; reflexivity|].
  destruct (dsygvx_c_writes_only_through_the_call dsygvx_reports_ok 0
              (HeapPtr 1) (HeapPtr 5) (HeapPtr 9) (HeapPtr 10) (HeapPtr 11)
              (HeapPtr 13) (HeapPtr 17) (HeapPtr 33) (HeapPtr 43) (HeapPtr 45)
              sample_heap 2 sample_heap_n)
    as (h' & ev & Hrun & Hheap & Hdom & _ & Hback & _).
  exists h', ev. repeat split; assumption.
Defined.

Lemma dsygvx_c_lwork_int_arithmetic_sample :
  huge_n_heap !! 0 = Some (Vint 268435456)
  /\ exists h' ev lw,
       sample_invoke dsygvx_reports_ok (HeapPtr 0) huge_n_heap = Some (h', [ev])
       /\ passed arg_lwork ev = Some (Vint lw)
       /\ lw = CInt.int_mul 8 268435456.
Proof.
  split; [vm_compute; reflexivity|].
  destruct (dsygvx_c_lwork_int_arithmetic dsygvx_reports_ok 0
              (HeapPtr 1) (HeapPtr 5) (HeapPtr 9) (HeapPtr 10) (HeapPtr 11)
              (HeapPtr 13) (HeapPtr 17) (HeapPtr 33) (HeapPtr 43) (HeapPtr 45)
              huge_n_heap 268435456 huge_n_heap_n)
    as (h' & ev & lw & Hrun & Hlw & Hval & _).
  exists h', ev, lw. repeat split; assumption.
Defined.

(** The sample routine touches the cell [info] designates and no other. *)
Lemma dsygvx_reports_ok_confined (F : gset Z) (args : dsygvx_args)
    (fr : gmap string val) (ainfo : Z) :
  arg_info args = HeapPtr ainfo -> ainfo ∈ F ->
  confined dsygvx_reports_ok F args fr.
Proof.
  intros Hinfo Hin. unfold confined, dsygvx_reports_ok. rewrite Hinfo. simpl.
  split.
  - intros h1 h2 Hagree addr Haddr.
    destruct (decide (addr = ainfo)) as [->|Hne].
    + by rewrite !lookup_insert_eq.
    + rewrite !lookup_insert_ne by done. apply Hagree, Haddr.
  - intros h addr Hout. apply lookup_insert_ne. intros ->. done.
Qed.

Lemma two_problems_heap_n1 : two_problems_heap !! 0 = Some (Vint 2).
Proof. vm_compute. reflexivity. Qed.

Lemma two_problems_heap_n2 : two_problems_heap !! 100 = Some (Vint 3).
Proof. vm_compute. reflexivity. Qed.

Lemma sample_cells_disjoint :
  ({[0; 45]} : gset Z) ## {[100; 101]}
  /\ 0 ∈ ({[0; 45]} : gset Z) /\ 45 ∈ ({[0; 45]} : gset Z)
  /\ 100 ∈ ({[100; 101]} : gset Z) /\ 101 ∈ ({[100; 101]} : gset Z).
Proof.
  split.
  - apply elem_of_disjoint. intros x.
    rewrite !elem_of_union, !elem_of_singleton. lia.
  - repeat split; rewrite elem_of_union, !elem_of_singleton; lia.
Qed.

Lemma dsygvx_c_stateless_order_independent_sample :
  exists h12 ev1 ev2 ev2' ev1',
    and_then (fun h => sample_invoke dsygvx_reports_ok (HeapPtr 0) h)
             (invoke_dsygvx_c dsygvx_reports_ok (HeapPtr 100) NULL NULL NULL
                NULL NULL NULL NULL NULL NULL (HeapPtr 101))
             two_problems_heap
    = Some (h12, [ev1; ev2])
    /\ and_then (invoke_dsygvx_c dsygvx_reports_ok (HeapPtr 100) NULL NULL NULL
                   NULL NULL NULL NULL NULL NULL (HeapPtr 101))
                (fun h => sample_invoke dsygvx_reports_ok (HeapPtr 0) h)
                two_problems_heap
       = Some (h12, [ev2'; ev1'])
    /\ h12 !! 45 = Some (Vint 0) /\ h12 !! 101 = Some (Vint 0).
Proof.
  destruct sample_cells_disjoint as (Hdisj & Hn1 & Hi1 & Hn2 & Hi2).
  pose proof (invoke_dsygvx_c_eq dsygvx_reports_ok 0
                (HeapPtr 1) (HeapPtr 5) (HeapPtr 9) (HeapPtr 10) (HeapPtr 11)
                (HeapPtr 13) (HeapPtr 17) (HeapPtr 33) (HeapPtr 43) (HeapPtr 45)
                two_problems_heap 2 two_problems_heap_n1) as HA.
  pose proof (invoke_dsygvx_c_eq dsygvx_reports_ok 100
                NULL NULL NULL NULL NULL NULL NULL NULL NULL (HeapPtr 101)
                two_problems_heap 3 two_problems_heap_n2) as HB.
  destruct (proj2 (dsygvx_c_stateless_order_independent dsygvx_reports_ok 0
                     (HeapPtr 1) (HeapPtr 5) (HeapPtr 9) (HeapPtr 10)
                     (HeapPtr 11) (HeapPtr 13) (HeapPtr 17) (HeapPtr 33)
                     (HeapPtr 43) (HeapPtr 45)
                     100 NULL NULL NULL NULL NULL NULL NULL NULL NULL
                     (HeapPtr 101))
              two_problems_heap _ _ _ _ {[0; 45]} {[100; 101]}
              HA HB Hdisj Hn1 Hn2)
    as (h12 & ev1 & ev2 & ev2' & ev1' & H12 & H21 & _ & _ & _ & _ & In1 & In2 & _).
  { apply (dsygvx_reports_ok_confined _ _ _ 45); [reflexivity | exact Hi1]. }
  { apply (dsygvx_reports_ok_confined _ _ _ 101); [reflexivity | exact Hi2]. }
  exists h12, ev1, ev2, ev2', ev1'.
  split; [exact H12|]. split; [exact H21|]. split.
  - rewrite (In1 45 Hi1). vm_compute. reflexivity.
  - rewrite (In2 101 Hi2). vm_compute. reflexivity.
Defined.

Lemma R_init_linproj_dot_C_only_sample :
  DotCall <> DotC
  /\ registered (R_init_linproj AddDLL) DotCall = []
  /\ R_dlsym linproj_exports (R_init_linproj AddDLL) DotCall "dsygvx_c" = None
  /\ R_dlsym linproj_exports (R_init_linproj AddDLL) DotC "dsygvx_c"
     = Some addr_dsygvx_c.
Proof.
  assert (Hcv : DotCall <> DotC) by discriminate.
  split; [exact Hcv|].
  destruct (R_init_linproj_dot_C_only AddDLL DotCall Hcv) as (Hsame & Hnone & Hc).
  split; [exact Hsame|]. split; [apply Hnone; reflexivity | apply Hc].
Defined.


(** * Further properties of the shim *)

(** X2.  The [lwork] handed to the routine is the mathematical product
    [8 n] exactly when [-2^28 <= n <= 2^28 - 1]; outside that range it is
    some other [int]. *)
Theorem dsygvx_c_lwork_exact_iff_n_within_2_pow_28
    (dsygvx : dsygvx_args -> mem -> mem) (an : Z)
    (a b il m w z work iwork ifail info : ptr) (h : gmap Z val) (vn : Z) :
  h !! an = Some (Vint vn) ->
  exists h' ev lw,
    invoke_dsygvx_c dsygvx (HeapPtr an) a b il m w z work iwork ifail info h
    = Some (h', [ev])
    /\ passed arg_lwork ev = Some (Vint lw)
    /\ (lw = 8 * vn <-> - 2 ^ 28 <= vn <= 2 ^ 28 - 1).
Proof.
  intros Hn. eexists _, _, _. split; [apply invoke_dsygvx_c_eq, Hn|].
  split.
  { unfold passed; simpl. apply (frame_at_call_lookups vn). }
  unfold CInt.int_mul. split.
  - intros Heq. pose proof (int_wrap_in_int (8 * vn)) as Hin.
    rewrite Heq in Hin. unfold CInt.in_int, CInt.INT_MIN, CInt.INT_MAX in Hin.
    lia.
  - intros Hr. apply int_wrap_id.
    unfold CInt.in_int, CInt.INT_MIN, CInt.INT_MAX. lia.
Qed.

(** X3.  Whatever [int] the caller stored in [n], the [lwork] handed to
    the routine is an [int] and a multiple of 8, and it is 0 exactly when
    [n] is a multiple of [2^29]: the only dimensions that yield a
    zero-length workspace are 0 and the multiples of [2^29]. *)
Theorem dsygvx_c_lwork_multiple_of_8
    (dsygvx : dsygvx_args -> mem -> mem) (an : Z)
    (a b il m w z work iwork ifail info : ptr) (h : gmap Z val) (vn : Z) :
  h !! an = Some (Vint vn) ->
  exists h' ev lw,
    invoke_dsygvx_c dsygvx (HeapPtr an) a b il m w z work iwork ifail info h
    = Some (h', [ev])
    /\ passed arg_lwork ev = Some (Vint lw)
    /\ CInt.in_int lw
    /\ lw mod 8 = 0
    /\ (lw = 0 <-> vn mod 2 ^ 29 = 0).
Proof.
  intros Hn. eexists _, _, _. split; [apply invoke_dsygvx_c_eq, Hn|].
  split.
  { unfold passed; simpl. apply (frame_at_call_lookups vn). }
  unfold CInt.int_mul. split; [apply int_wrap_in_int|].
  destruct (int_wrap_congruent (8 * vn)) as [k Hk].
  pose proof (int_wrap_in_int (8 * vn)) as Hin.
  unfold CInt.in_int, CInt.INT_MIN, CInt.INT_MAX in Hin.
  rewrite Hk in *. split.
  - replace (8 * vn - k * 2 ^ 32) with ((vn - k * 2 ^ 29) * 8) by lia.
    apply Z.mod_mul. lia.
  - split.
    + intros H0. replace vn with (k * 2 ^ 29) by lia. apply Z.mod_mul. lia.
    + intros Hmod. apply Z.mod_divide in Hmod; [|lia].
      destruct Hmod as [q Hq]. subst vn. lia.
Qed.

(** X4.  The two value-range bounds the routine is given, [vl] and [vu],
    are both 0.0.  The eight arguments the shim supplies itself designate
    eight different automatic variables, and none of them is one of the
    caller's pointers: no caller buffer overlaps the configuration. *)
Theorem dsygvx_c_configuration_cells_private
    (dsygvx : dsygvx_args -> mem -> mem) (an : Z)
    (a b il m w z work iwork ifail info : ptr) (h : gmap Z val) (vn : Z) :
  h !! an = Some (Vint vn) ->
  Forall caller_ptr [a; b; il; m; w; z; work; iwork; ifail; info] ->
  exists h' ev,
    invoke_dsygvx_c dsygvx (HeapPtr an) a b il m w z work iwork ifail info h
    = Some (h', [ev])
    /\ passed arg_vl ev = Some (Vdouble CDouble.lit_0_0)
    /\ passed arg_vu ev = Some (Vdouble CDouble.lit_0_0)
    /\ NoDup (config_args (ev_args ev))
    /\ (forall p, p ∈ config_args (ev_args ev) ->
          p ∉ caller_args (ev_args ev)).
Proof.
  intros Hn Hcaller. eexists _, _. split; [apply invoke_dsygvx_c_eq, Hn|].
  destruct (frame_at_call_lookups vn) as (_ & _ & _ & _ & Lvl & Lvu & _ & _).
  unfold passed; simpl. split; [exact Lvl|]. split; [exact Lvu|].
  unfold config_args, caller_args, addr_of; simpl. split.
  - repeat (apply NoDup_cons_2;
            [rewrite list_elem_of_In; simpl; intuition discriminate|]).
    apply NoDup_nil_2.
  - intros p Hp Hc.
    assert (Hloc : exists x, p = LocalPtr x).
    { apply list_elem_of_In in Hp. simpl in Hp.
      repeat (destruct Hp as [<-|Hp]; [eauto|]). destruct Hp. }
    destruct Hloc as [x ->].
    apply elem_of_cons in Hc. destruct Hc as [Hc|Hc]; [discriminate|].
    rewrite Forall_forall in Hcaller.
    exact (Hcaller _ Hc x eq_refl).
Qed.

(** X5.  Two invocations one after the other, when both are defined, make
    two calls of the routine, in order.  The first is entered with the
    caller's memory, the second with the memory the first call of the
    routine left, and the caller ends with what the second left.  The
    second call finds the configuration whole (itype 1, abstol 1e-5, the
    eight automatic variables and no others), whatever the routine did to
    those variables during the first call. *)
Theorem dsygvx_c_two_calls_in_sequence
    (dsygvx : dsygvx_args -> mem -> mem)
    (an1 : Z) (a1 b1 il1 m1 w1 z1 work1 iwork1 ifail1 info1 : ptr)
    (an2 : Z) (a2 b2 il2 m2 w2 z2 work2 iwork2 ifail2 info2 : ptr)
    (h h2 : gmap Z val) (t : list call_event) :
  and_then
    (invoke_dsygvx_c dsygvx (HeapPtr an1) a1 b1 il1 m1 w1 z1 work1 iwork1
                     ifail1 info1)
    (invoke_dsygvx_c dsygvx (HeapPtr an2) a2 b2 il2 m2 w2 z2 work2 iwork2
                     ifail2 info2)
    h = Some (h2, t) ->
  exists ev1 ev2,
    t = [ev1; ev2]
    /\ heap (ev_mem ev1) = h
    /\ heap (ev_mem ev2) = heap (dsygvx (ev_args ev1) (ev_mem ev1))
    /\ h2 = heap (dsygvx (ev_args ev2) (ev_mem ev2))
    /\ passed arg_itype ev2 = Some (Vint 1)
    /\ passed arg_abstol ev2 = Some (Vdouble CDouble.lit_1e_5)
    /\ dom (frame (ev_mem ev2)) = dsygvx_c_locals.
Proof.
  unfold and_then.
  destruct (invoke_dsygvx_c dsygvx (HeapPtr an1) _ _ _ _ _ _ _ _ _ _ h)
    as [[h1 t1]|] eqn:E1; [|discriminate].
  destruct (invoke_dsygvx_c dsygvx (HeapPtr an2) _ _ _ _ _ _ _ _ _ _ h1)
    as [[h2' t2]|] eqn:E2; [|discriminate].
  intros [= <- <-].
  destruct (invoke_dsygvx_c_reads_n _ _ _ _ _ _ _ _ _ _ _ _ _ _ _ E1) as [v1 Hv1].
  destruct (invoke_dsygvx_c_reads_n _ _ _ _ _ _ _ _ _ _ _ _ _ _ _ E2) as [v2 Hv2].
  rewrite (invoke_dsygvx_c_eq dsygvx _ _ _ _ _ _ _ _ _ _ _ _ _ Hv1) in E1.
  rewrite (invoke_dsygvx_c_eq dsygvx _ _ _ _ _ _ _ _ _ _ _ _ _ Hv2) in E2.
  injection E1 as <- <-. injection E2 as <- <-.
  eexists _, _. split; [reflexivity|]. simpl.
  split; [reflexivity|]. split; [reflexivity|]. split; [reflexivity|].
  destruct (frame_at_call_lookups v2) as (Li & _ & _ & _ & _ & _ & La & _).
  unfold passed; simpl. split; [exact Li|]. split; [exact La|].
  apply frame_at_call_dom.
Qed.

(** * Further properties of the registration *)

(** X6.  What initialisation leaves depends on the module's record only
    through its [.Call], [.Fortran] and [.External] tables: earlier [.C]
    registrations and the earlier setting of dynamic lookup are replaced,
    not added to.  In particular initialising twice is the same as
    initialising once. *)
Theorem R_init_linproj_replaces_dot_C_table (dll dll' : DllInfo) :
  (forall cv, cv <> DotC -> registered dll cv = registered dll' cv) ->
  R_init_linproj dll = R_init_linproj dll'
  /\ R_init_linproj (R_init_linproj dll) = R_init_linproj dll.
Proof.
  intros Hsame. split; [|reflexivity].
  pose proof (Hsame DotCall ltac:(discriminate)) as H1.
  pose proof (Hsame DotFortran ltac:(discriminate)) as H2.
  pose proof (Hsame DotExternal ltac:(discriminate)) as H3.
  simpl in H1, H2, H3.
  unfold R_init_linproj, R_useDynamicSymbols, R_registerRoutines. simpl.
  rewrite H1, H2, H3. reflexivity.
Qed.

(** X7.  [CEntries] ends in a null-name row, so the loader's scan of the
    table stops inside the array: whatever follows the array in memory,
    the routines registered are the same.  Without that last row the scan
    would run on into what follows. *)
Theorem CEntries_null_terminated (beyond : list R_CMethodDef) :
  (exists d, last CEntries = Some d /\ name d = None)
  /\ rows (CEntries ++ beyond) = rows CEntries
  /\ rows (removelast CEntries ++ beyond)
     = rows CEntries ++ rows beyond.
Proof.
  split; [eexists; split; reflexivity|]. split; reflexivity.
Qed.

(** ** The further properties on the sample call *)

Lemma dsygvx_c_lwork_exact_iff_n_within_2_pow_28_sample :
  huge_n_heap !! 0 = Some (Vint 268435456)
  /\ exists h' ev lw,
       sample_invoke dsygvx_reports_ok (HeapPtr 0) huge_n_heap = Some (h', [ev])
       /\ passed arg_lwork ev = Some (Vint lw)
       /\ lw <> 8 * 268435456.
Proof.
  split; [vm_compute; reflexivity|].
  destruct (dsygvx_c_lwork_exact_iff_n_within_2_pow_28 dsygvx_reports_ok 0
              (HeapPtr 1) (HeapPtr 5) (HeapPtr 9) (HeapPtr 10) (HeapPtr 11)
              (HeapPtr 13) (HeapPtr 17) (HeapPtr 33) (HeapPtr 43) (HeapPtr 45)
              huge_n_heap 268435456 huge_n_heap_n)
    as (h' & ev & lw & Hrun & Hlw & Hiff).
  exists h', ev, lw. split; [exact Hrun|]. split; [exact Hlw|].
  intros Heq. apply Hiff in Heq. lia.
Defined.

Lemma dsygvx_c_lwork_multiple_of_8_sample :
  sample_heap !! 0 = Some (Vint 2)
  /\ exists h' ev lw,
       sample_invoke dsygvx_reports_ok (HeapPtr 0) sample_heap = Some (h', [ev])
       /\ passed arg_lwork ev = Some (Vint lw)
       /\ lw mod 8 = 0 /\ lw <> 0.
Proof.
  split; [vm_compute; reflexivity|].
  destruct (dsygvx_c_lwork_multiple_of_8 dsygvx_reports_ok 0
              (HeapPtr 1) (HeapPtr 5) (HeapPtr 9) (HeapPtr 10) (HeapPtr 11)
              (HeapPtr 13) (HeapPtr 17) (HeapPtr 33) (HeapPtr 43) (HeapPtr 45)
              sample_heap 2 sample_heap_n)
    as (h' & ev & lw & Hrun & Hlw & _ & Hmod & Hzero).
  exists h', ev, lw. split; [exact Hrun|]. split; [exact Hlw|].
  split; [exact Hmod|]. intros H0. apply Hzero in H0. discriminate H0.
Defined.

Lemma sample_pointers_are_caller_pointers :
  Forall caller_ptr
         [HeapPtr 1; HeapPtr 5; HeapPtr 9; HeapPtr 10; HeapPtr 11; HeapPtr 13;
          HeapPtr 17; HeapPtr 33; HeapPtr 43; HeapPtr 45].
Proof. repeat (apply Forall_cons; split; [intros x; discriminate|]). apply Forall_nil. exact I. Qed.

Lemma dsygvx_c_configuration_cells_private_sample :
  sample_heap !! 0 = Some (Vint 2)
  /\ Forall caller_ptr
            [HeapPtr 1; HeapPtr 5; HeapPtr 9; HeapPtr 10; HeapPtr 11;
             HeapPtr 13; HeapPtr 17; HeapPtr 33; HeapPtr 43; HeapPtr 45]
  /\ exists h' ev,
       sample_invoke dsygvx_reports_ok (HeapPtr 0) sample_heap = Some (h', [ev])
       /\ passed arg_vl ev = Some (Vdouble CDouble.lit_0_0)
       /\ NoDup (config_args (ev_args ev)).
Proof.
  split; [vm_compute; reflexivity|].
  split; [exact sample_pointers_are_caller_pointers|].
  destruct (dsygvx_c_configuration_cells_private dsygvx_reports_ok 0
              (HeapPtr 1) (HeapPtr 5) (HeapPtr 9) (HeapPtr 10) (HeapPtr 11)
              (HeapPtr 13) (HeapPtr 17) (HeapPtr 33) (HeapPtr 43) (HeapPtr 45)
              sample_heap 2 sample_heap_n sample_pointers_are_caller_pointers)
    as (h' & ev & Hrun & Hvl & _ & Hnd & _).
  exists h', ev. repeat split; assumption.
Defined.

Lemma two_sample_calls_defined :
  exists h2 t,
    and_then (fun h => sample_invoke dsygvx_overwrites_abstol (HeapPtr 0) h)
             (invoke_dsygvx_c dsygvx_overwrites_abstol (HeapPtr 100) NULL NULL
                NULL NULL NULL NULL NULL NULL NULL (HeapPtr 101))
             two_problems_heap
    = Some (h2, t).
Proof.
  unfold and_then.
  rewrite (invoke_dsygvx_c_eq dsygvx_overwrites_abstol 0 _ _ _ _ _ _ _ _ _ _
             two_problems_heap 2 two_problems_heap_n1).
  erewrite (invoke_dsygvx_c_eq dsygvx_overwrites_abstol 100 _ _ _ _ _ _ _ _ _ _
              _ 3); [eauto|].
  vm_compute. reflexivity.
Qed.

Lemma dsygvx_c_two_calls_in_sequence_sample :
  exists h2 t ev1 ev2,
    and_then (fun h => sample_invoke dsygvx_overwrites_abstol (HeapPtr 0) h)
             (invoke_dsygvx_c dsygvx_overwrites_abstol (HeapPtr 100) NULL NULL
                NULL NULL NULL NULL NULL NULL NULL (HeapPtr 101))
             two_problems_heap
    = Some (h2, t)
    /\ t = [ev1; ev2]
    /\ passed arg_abstol ev2 = Some (Vdouble CDouble.lit_1e_5).
Proof.
  destruct two_sample_calls_defined as (h2 & t & Hrun).
  destruct (dsygvx_c_two_calls_in_sequence dsygvx_overwrites_abstol 0
              (HeapPtr 1) (HeapPtr 5) (HeapPtr 9) (HeapPtr 10) (HeapPtr 11)
              (HeapPtr 13) (HeapPtr 17) (HeapPtr 33) (HeapPtr 43) (HeapPtr 45)
              100 NULL NULL NULL NULL NULL NULL NULL NULL NULL (HeapPtr 101)
              two_problems_heap h2 t Hrun)
    as (ev1 & ev2 & Ht & _ & _ & _ & _ & Habstol & _).
  exists h2, t, ev1, ev2. repeat split; assumption.
Defined.

Lemma R_init_linproj_replaces_dot_C_table_sample :
  (forall cv, cv <> DotC ->
     registered (R_init_linproj AddDLL) cv = registered AddDLL cv)
  /\ R_init_linproj (R_init_linproj AddDLL) = R_init_linproj AddDLL.
Proof.
  assert (Hsame : forall cv, cv <> DotC ->
            registered (R_init_linproj AddDLL) cv = registered AddDLL cv).
  { intros cv Hcv. destruct cv; [congruence| | |]; reflexivity. }
  split; [exact Hsame|].
  exact (proj1 (R_init_linproj_replaces_dot_C_table
                  (R_init_linproj AddDLL) AddDLL Hsame)).
Defined.
